(** * nc-news-api: routing, controllers and the error-normalisation chain

    A shallow embedding of [app.js], [controllers/error.controllers.js] and
    [controllers/articles.controllers.js], together with the statements of
    the specification that are checked against them.

    Conventions of the embedding:
    - a JavaScript value is a [JS.value]; numbers are restricted to integers,
      which is all that status codes, identifiers and vote deltas need;
    - a JavaScript object read by property name (a failure object, a request
      body, [request.params], [request.query]) is a finite map from property
      names to values; reading an absent property gives [undefined];
    - a promise is a function of the store that settles to a value or to a
      rejection and returns the store it leaves behind; the store carries the
      log of the statements it was sent;
    - the Express application is its stack of layers, walked in registration
      order. *)

From Stdlib Require Import ZArith String Ascii List Bool Lia.
From stdpp Require Import base option gmap strings list pretty.

Local Open Scope string_scope.
Local Open Scope Z_scope.

(** ** JavaScript values *)

Module JS.

Inductive value : Type :=
| Undefined
| Null
| Bool (b : bool)
| Num (n : Z)
| Str (s : string).

(** ToBoolean. *)
Definition truthy (v : value) : bool :=
  match v with
  | Undefined | Null => false
  | Bool b => b
  | Num n => negb (n =? 0)%Z
  | Str s => negb (s =? "")%string
  end.

(** [a && b]: the left operand when it is falsy, the right one otherwise. *)
Definition and (a b : value) : value :=
  if truthy a then b else a.

(** [a === b] on primitive values. *)
Definition strict_eq (a b : value) : bool :=
  match a, b with
  | Undefined, Undefined => true
  | Null, Null => true
  | Bool x, Bool y => Bool.eqb x y
  | Num x, Num y => (x =? y)%Z
  | Str x, Str y => (x =? y)%string
  | _, _ => false
  end.

(** [o.k], [undefined] when [o] has no property [k]. *)
Definition get (o : gmap string value) (k : string) : value :=
  default Undefined (o !! k).

(** [o.k] for an object whose properties are all strings
    ([request.params], [request.query]). *)
Definition get_str (o : gmap string string) (k : string) : value :=
  match o !! k with
  | Some s => Str s
  | None => Undefined
  end.

End JS.

(** ** Data model (rows of the four collections) *)

Record article : Type := Article {
  article_id : Z;
  title : string;
  topic : string;
  author : string;
  body : string;
  created_at : Z;
  votes : Z;
  article_img_url : string
}.

Record comment : Type := Comment {
  comment_id : Z;
  comment_body : string;
  comment_author : string;
  comment_article_id : Z;
  comment_votes : Z;
  comment_created_at : Z
}.

Record user : Type := User {
  username : string;
  name : string;
  avatar_url : string
}.

Record topic_row : Type := Topic {
  slug : string;
  description : string
}.

(** An article as the list endpoint serves it: with the number of comments
    that reference it. *)
Record listed_article : Type := Listed {
  listed : article;
  comment_count : Z
}.

(** ** Text utilities *)

(** The double-quote character, and a word between double quotes. *)
Definition dq : string := String "034"%char EmptyString.

Definition quoted (s : string) : string := dq ++ s ++ dq.

(** ASCII lower-casing: Express compares route literals, and SQL compares
    keywords, without regard to case. *)
Definition lower_ascii (c : ascii) : ascii :=
  let n := N_of_ascii c in
  if ((65 <=? n) && (n <=? 90))%N then ascii_of_N (n + 32) else c.

Fixpoint lower (s : string) : string :=
  match s with
  | EmptyString => EmptyString
  | String c s' => String (lower_ascii c) (lower s')
  end.

Definition digit_of (c : ascii) : option Z :=
  let n := Z.of_N (N_of_ascii c) in
  if (48 <=? n) && (n <=? 57) then Some (n - 48) else None.

Fixpoint digits_value (acc : Z) (s : string) : option Z :=
  match s with
  | EmptyString => Some acc
  | String c s' =>
      match digit_of c with
      | Some d => digits_value (10 * acc + d) s'
      | None => None
      end
  end.

(** One or more decimal digits. *)
Definition parse_digits (s : string) : option Z :=
  match s with
  | EmptyString => None
  | _ => digits_value 0 s
  end.

(** White space as the store's input functions know it: the space and the
    characters 9 to 13. *)
Definition is_space (c : ascii) : bool :=
  let n := N_of_ascii c in
  ((n =? 32) || ((9 <=? n) && (n <=? 13)))%N.

Fixpoint skip_spaces (s : string) : string :=
  match s with
  | EmptyString => EmptyString
  | String c s' => if is_space c then skip_spaces s' else s
  end.

Fixpoint all_spaces (s : string) : bool :=
  match s with
  | EmptyString => true
  | String c s' => is_space c && all_spaces s'
  end.

(** One or more decimal digits, then nothing but white space; [seen] tells
    whether a digit has been read. *)
Fixpoint digits_then_spaces (acc : Z) (seen : bool) (s : string)
  : option Z :=
  match s with
  | EmptyString => if seen then Some acc else None
  | String c s' =>
      match digit_of c with
      | Some d => digits_then_spaces (10 * acc + d) true s'
      | None => if seen && all_spaces s then Some acc else None
      end
  end.

(** Insertion sort by a boolean order; stable. *)
Fixpoint insert_by {A : Type} (leb : A -> A -> bool) (x : A) (l : list A)
  : list A :=
  match l with
  | [] => [x]
  | y :: l' => if leb x y then x :: y :: l' else y :: insert_by leb x l'
  end.

Fixpoint insertion_sort {A : Type} (leb : A -> A -> bool) (l : list A) : list A :=
  match l with
  | [] => []
  | x :: l' => insert_by leb x (insertion_sort leb l')
  end.

(** ** The data store (external collaborator)

    The relational store the models talk to, as section 6 of the
    specification describes it: it executes a parameterised statement and
    returns rows, or raises a structured failure that carries a
    store-specific code and message. The codes are the SQLSTATE values of
    PostgreSQL. Every statement the store receives is appended to
    [statements]. *)

Inductive sort_column : Type :=
| ByAuthor | ByTitle | ByArticleId | ByTopic | ByCreatedAt | ByVotes
| ByCommentCount.

Inductive statement : Type :=
| SelectTopics
| SelectArticles (topic : option string) (column : sort_column)
                 (direction : string)
| SelectArticleById (id : JS.value)
| SelectCommentsByArticleId (id : JS.value)
| InsertComment (article_id body username : JS.value)
| UpdateArticleVotes (article_id inc_votes : JS.value)
| DeleteComment (comment_id : JS.value).

Record store : Type := Store {
  topics : list topic_row;
  users : list user;
  articles : list article;
  comments : list comment;
  next_comment_id : Z;
  clock : Z;
  statements : list statement
}.

Inductive store_failure : Type :=
| InvalidTextRepresentation (token : string)
| NumericValueOutOfRange (token : string)
| IntegerOutOfRange
| NotNullViolation (column : string)
| ForeignKeyViolation (column value table : string)
| SyntaxError (token : string).

Inductive store_result (A : Type) : Type :=
| Rows (a : A)
| Raised (f : store_failure).

Arguments Rows {A} a.
Arguments Raised {A} f.

Module Db.

Definition sqlstate (f : store_failure) : string :=
  match f with
  | InvalidTextRepresentation _ => "22P02"
  | NumericValueOutOfRange _ => "22003"
  | IntegerOutOfRange => "22003"
  | NotNullViolation _ => "23502"
  | ForeignKeyViolation _ _ _ => "23503"
  | SyntaxError _ => "42601"
  end.

Definition message (f : store_failure) : string :=
  match f with
  | InvalidTextRepresentation tok =>
      "invalid input syntax for type integer: " ++ quoted tok
  | NumericValueOutOfRange tok =>
      "value " ++ quoted tok ++ " is out of range for type integer"
  | IntegerOutOfRange => "integer out of range"
  | NotNullViolation col =>
      "null value in column " ++ quoted col ++
      " of relation " ++ quoted "comments" ++
      " violates not-null constraint"
  | ForeignKeyViolation col _ _ =>
      "insert or update on table " ++ quoted "comments" ++
      " violates foreign key constraint " ++
      quoted ("comments_" ++ col ++ "_fkey")
  | SyntaxError tok => "syntax error at or near " ++ quoted tok
  end.

Definition detail (f : store_failure) : option string :=
  match f with
  | ForeignKeyViolation col v table =>
      Some ("Key (" ++ col ++ ")=(" ++ v ++ ") is not present in table "
            ++ quoted table ++ ".")
  | _ => None
  end.

(** The failure object the driver rejects with: [code], [message] and,
    for a violated reference, [detail]. It has no [status] and no [msg]. *)
Definition failure_object (f : store_failure) : gmap string JS.value :=
  let o : gmap string JS.value :=
    <["code" := JS.Str (sqlstate f)]>
      (<["message" := JS.Str (message f)]> ∅) in
  match detail f with
  | Some d => <["detail" := JS.Str d]> o
  | None => o
  end.

(** The text form of a 32-bit integer as the store reads it: optional
    white space, an optional sign, one or more decimal digits, optional
    white space. *)
Definition read_int4 (tok : string) : option Z :=
  match skip_spaces tok with
  | String "-"%char s => Z.opp <$> digits_then_spaces 0 false s
  | String "+"%char s => digits_then_spaces 0 false s
  | s => digits_then_spaces 0 false s
  end.

(** Binding a value to a parameter of the 32-bit integer type. *)
Inductive int4_input : Type :=
| Int4 (n : Z)
| Int4Null
| Int4Raise (f : store_failure).

Definition int4_min : Z := -2147483648.
Definition int4_max : Z := 2147483647.

Definition int4_range (n : Z) (tok : string) : int4_input :=
  if (int4_min <=? n) && (n <=? int4_max)
  then Int4 n
  else Int4Raise (NumericValueOutOfRange tok).

Definition int4_in (v : JS.value) : int4_input :=
  match v with
  | JS.Str tok =>
      match read_int4 tok with
      | Some n => int4_range n tok
      | None => Int4Raise (InvalidTextRepresentation tok)
      end
  | JS.Num n => int4_range n (pretty n)
  | JS.Bool b =>
      Int4Raise (InvalidTextRepresentation (if b then "true" else "false"))
  | JS.Null | JS.Undefined => Int4Null
  end.

(** Binding a value to a parameter of a text type; [None] is NULL. *)
Definition text_in (v : JS.value) : option string :=
  match v with
  | JS.Str s => Some s
  | JS.Num n => Some (pretty n)
  | JS.Bool b => Some (if b then "true" else "false")
  | JS.Null | JS.Undefined => None
  end.

Definition issue (q : statement) (st : store) : store :=
  Store (topics st) (users st) (articles st) (comments st)
        (next_comment_id st) (clock st) ((statements st ++ [q])%list).

Definition set_articles (l : list article) (st : store) : store :=
  Store (topics st) (users st) l (comments st)
        (next_comment_id st) (clock st) (statements st).

Definition set_comments (l : list comment) (st : store) : store :=
  Store (topics st) (users st) (articles st) l
        (next_comment_id st) (clock st) (statements st).

Definition set_next_comment_id (n : Z) (st : store) : store :=
  Store (topics st) (users st) (articles st) (comments st)
        n (clock st) (statements st).

Definition articles_with_id (n : Z) (st : store) : list article :=
  List.filter (fun a => article_id a =? n) (articles st).

Definition comments_of_article (n : Z) (st : store) : list comment :=
  List.filter (fun c => comment_article_id c =? n) (comments st).

Definition has_user (u : string) (st : store) : bool :=
  existsb (fun x => (username x =? u)%string) (users st).

Definition has_article (n : Z) (st : store) : bool :=
  existsb (fun a => article_id a =? n) (articles st).

Definition count_comments (a : article) (st : store) : Z :=
  Z.of_nat (length (comments_of_article (article_id a) st)).

Definition column_leb (col : sort_column) (x y : listed_article) : bool :=
  match col with
  | ByAuthor => String.leb (author (listed x)) (author (listed y))
  | ByTitle => String.leb (title (listed x)) (title (listed y))
  | ByArticleId => article_id (listed x) <=? article_id (listed y)
  | ByTopic => String.leb (topic (listed x)) (topic (listed y))
  | ByCreatedAt => created_at (listed x) <=? created_at (listed y)
  | ByVotes => votes (listed x) <=? votes (listed y)
  | ByCommentCount => comment_count x <=? comment_count y
  end.

(** The ORDER BY direction is a keyword of the statement's text: [ASC] or
    [DESC] in any case, anything else is a syntax error. *)
Definition direction_of (tok : string) : option bool :=
  let t := lower tok in
  if (t =? "asc")%string then Some true
  else if (t =? "desc")%string then Some false
  else None.

Definition select_topics (st : store)
  : store_result (list topic_row) * store :=
  (Rows (topics st), issue SelectTopics st).

Definition select_articles (tp : option string) (col : sort_column)
    (dir : string) (st : store)
  : store_result (list listed_article) * store :=
  let st' := issue (SelectArticles tp col dir) st in
  match direction_of dir with
  | None => (Raised (SyntaxError dir), st')
  | Some ascending =>
      let kept :=
        match tp with
        | Some t => List.filter (fun a => (topic a =? t)%string) (articles st)
        | None => articles st
        end in
      let rows := List.map (fun a => Listed a (count_comments a st)) kept in
      let leb := if ascending then column_leb col
                 else fun x y => column_leb col y x in
      (Rows (insertion_sort leb rows), st')
  end.

Definition select_article_by_id (id : JS.value) (st : store)
  : store_result (list article) * store :=
  let st' := issue (SelectArticleById id) st in
  match int4_in id with
  | Int4Raise f => (Raised f, st')
  | Int4Null => (Rows [], st')
  | Int4 n => (Rows (articles_with_id n st), st')
  end.

(** Newest first, as [endpoints.json] documents the comments endpoint. *)
Definition select_comments_by_article_id (id : JS.value) (st : store)
  : store_result (list comment) * store :=
  let st' := issue (SelectCommentsByArticleId id) st in
  match int4_in id with
  | Int4Raise f => (Raised f, st')
  | Int4Null => (Rows [], st')
  | Int4 n =>
      (Rows (insertion_sort (fun x y => comment_created_at y <=? comment_created_at x)
                     (comments_of_article n st)), st')
  end.

Definition insert_comment (aid body username : JS.value) (st : store)
  : store_result comment * store :=
  let st' := issue (InsertComment aid body username) st in
  match int4_in aid with
  | Int4Raise f => (Raised f, st')
  | Int4Null => (Raised (NotNullViolation "article_id"), st')
  | Int4 n =>
      match text_in body, text_in username with
      | None, _ => (Raised (NotNullViolation "body"), st')
      | Some _, None => (Raised (NotNullViolation "author"), st')
      | Some b, Some u =>
          if negb (has_article n st)
          then (Raised (ForeignKeyViolation "article_id" (pretty n)
                                            "articles"), st')
          else if negb (has_user u st)
          then (Raised (ForeignKeyViolation "author" u "users"), st')
          else
            let row := Comment (next_comment_id st) b u n 0 (clock st) in
            (Rows row,
             set_next_comment_id (next_comment_id st + 1)
               (set_comments ((comments st ++ [row])%list) st'))
      end
  end.

Definition int4_fits (n : Z) : bool :=
  (int4_min <=? n) && (n <=? int4_max).

(** [votes = votes + delta] in one statement, returning the updated rows;
    a sum beyond the 32-bit integer type is raised and updates nothing. *)
Definition update_article_votes (aid delta : JS.value) (st : store)
  : store_result (list article) * store :=
  let st' := issue (UpdateArticleVotes aid delta) st in
  match int4_in delta, int4_in aid with
  | Int4Raise f, _ => (Raised f, st')
  | _, Int4Raise f => (Raised f, st')
  | Int4Null, _ => (Raised (NotNullViolation "votes"), st')
  | Int4 _, Int4Null => (Rows [], st')
  | Int4 d, Int4 n =>
      if existsb (fun a => negb (int4_fits (votes a + d)))
                 (articles_with_id n st)
      then (Raised IntegerOutOfRange, st')
      else
        let bump a :=
          if article_id a =? n
          then Article (article_id a) (title a) (topic a) (author a) (body a)
                       (created_at a) (votes a + d) (article_img_url a)
          else a in
        let st'' := set_articles (List.map bump (articles st)) st' in
        (Rows (articles_with_id n st''), st'')
  end.

(** Hard delete, returning the deleted rows. *)
Definition delete_comment (cid : JS.value) (st : store)
  : store_result (list comment) * store :=
  let st' := issue (DeleteComment cid) st in
  match int4_in cid with
  | Int4Raise f => (Raised f, st')
  | Int4Null => (Rows [], st')
  | Int4 n =>
      (Rows (List.filter (fun c => comment_id c =? n) (comments st)),
       set_comments
         (List.filter (fun c => negb (comment_id c =? n)) (comments st)) st')
  end.

End Db.

(** ** Responses *)

(** What [response.send] is given. *)
Inductive payload : Type :=
| MsgBody (msg : JS.value)                       (* { msg } *)
| TopicsBody (rows : list topic_row)             (* { topics } *)
| ArticlesBody (rows : list listed_article)      (* { articles } *)
| ArticleBody (row : article)                    (* { article } *)
| CommentsBody (rows : list comment)             (* { comments } *)
| CommentBody (row : comment)                    (* { comment } *)
| NoBody.                                        (* send() *)

Record response : Type := Response {
  status : JS.value;
  sent : payload
}.

(** ** Requests, promises and handlers *)

(** Request methods. *)
Inductive method : Type :=
| GET | HEAD | POST | PUT | PATCH | DELETE | OPTIONS.

(** A request once the JSON body parser of [app.js] has run: [req_body] is
    the parsed body, the empty object when the request carried none;
    [req_path] is the list of the path's segments; [req_params] is filled
    by the route that matches. *)
Record request : Type := Request {
  req_method : method;
  req_path : list string;
  req_params : gmap string string;
  req_query : gmap string string;
  req_body : gmap string JS.value
}.

(** What a handler or an error middleware does with a request: it answers,
    or it hands a failure object to [next]. *)
Inductive action : Type :=
| Send (r : response)
| Next (err : gmap string JS.value).

Definition handler : Type := request -> store -> action * store.

Inductive settled (A : Type) : Type :=
| Fulfilled (a : A)
| Rejected (err : gmap string JS.value).

Arguments Fulfilled {A} a.
Arguments Rejected {A} err.

Definition promise (A : Type) : Type := store -> settled A * store.

(** The object literal [{ status, msg }]. *)
Definition shaped (code : Z) (msg : string) : gmap string JS.value :=
  <["status" := JS.Num code]> (<["msg" := JS.Str msg]> ∅).

(** ** models/articles.models.js and models/topics.models.js

    Neither file is among the sources; the controllers import their
    functions, which are written here after the specification. *)

(** Modelled from the spec: the names of the sort keys of section 4.1, as
    the missing [models/articles.models.js] would spell them. *)
Definition sort_column_name (c : sort_column) : string :=
  match c with
  | ByAuthor => "author"
  | ByTitle => "title"
  | ByArticleId => "article_id"
  | ByTopic => "topic"
  | ByCreatedAt => "created_at"
  | ByVotes => "votes"
  | ByCommentCount => "comment_count"
  end.

(** Modelled from the spec: the sort keys of section 4.1, in the order the
    specification lists them; the missing [models/articles.models.js]
    holds the list. *)
Definition all_sort_columns : list sort_column :=
  [ByAuthor; ByTitle; ByArticleId; ByTopic; ByCreatedAt; ByVotes;
   ByCommentCount].

(** Modelled from the spec: the allow-list of sort keys of section 4.1,
    {author, title, article_id, topic, created_at, votes, comment_count};
    [models/articles.models.js], which holds it, is missing. *)
Definition allowed_sort_columns : list string :=
  List.map sort_column_name all_sort_columns.

(** Modelled from the spec: membership of a requested sort key in the
    allow-list (section 4.1), a check of the missing
    [models/articles.models.js]. *)
Definition resolve_sort_column (s : string) : option sort_column :=
  List.find (fun c => (sort_column_name c =? s)%string) all_sort_columns.

(** Modelled from the spec: "missing" for a field of a request body, that
    is, the body has no such property. *)
Definition missing (v : JS.value) : bool :=
  match v with
  | JS.Undefined => true
  | _ => false
  end.

(** Modelled from the spec: [fetchTopics] of [models/topics.models.js] is
    missing; a read of the topic collection. *)
Definition fetchTopics : promise (list topic_row) :=
  fun st =>
    match Db.select_topics st with
    | (Rows rows, st') => (Fulfilled rows, st')
    | (Raised f, st') => (Rejected (Db.failure_object f), st')
    end.

(** Modelled from the spec: [fetchAllArticles] of
    [models/articles.models.js] is missing. Sections 4.1 and 4.2: an
    optional topic filter, applied only when supplied; the sort column
    picked through the allow-list, [created_at] when absent, and
    [InvalidSortColumn] (400, "Invalid sort by query") outside it; the
    order token, [desc] when absent, not validated here and left to the
    store. *)
Definition fetchAllArticles (topic sortBy sortOrder : JS.value)
  : promise (list listed_article) :=
  fun st =>
    let column :=
      match Db.text_in sortBy with
      | None => Some ByCreatedAt
      | Some s => resolve_sort_column s
      end in
    match column with
    | None => (Rejected (shaped 400 "Invalid sort by query"), st)
    | Some col =>
        let dir := default "desc" (Db.text_in sortOrder) in
        match Db.select_articles (Db.text_in topic) col dir st with
        | (Rows rows, st') => (Fulfilled rows, st')
        | (Raised f, st') => (Rejected (Db.failure_object f), st')
        end
    end.

(** Modelled from the spec: [fetchArticlesById] of
    [models/articles.models.js] is missing. Section 4.3, the existence
    resolver for articles: a lookup by identifier; zero rows is [NotFound]
    (404, "Article ID does not exist"); what the store raises on the
    identifier (malformed, out of range) is passed on as raised. *)
Definition fetchArticlesById (article_id : JS.value) : promise article :=
  fun st =>
    match Db.select_article_by_id article_id st with
    | (Raised f, st') => (Rejected (Db.failure_object f), st')
    | (Rows [], st') =>
        (Rejected (shaped 404 "Article ID does not exist"), st')
    | (Rows (row :: _), st') => (Fulfilled row, st')
    end.

(** Modelled from the spec: [fetchCommentsByArticleId] of
    [models/articles.models.js] is missing. The comments of one article, a
    sequence of length 0..N; empty is a valid result. *)
Definition fetchCommentsByArticleId (article_id : JS.value)
  : promise (list comment) :=
  fun st =>
    match Db.select_comments_by_article_id article_id st with
    | (Raised f, st') => (Rejected (Db.failure_object f), st')
    | (Rows rows, st') => (Fulfilled rows, st')
    end.

(** Modelled from the spec: [insertCommentByArticleId] of
    [models/articles.models.js] is missing. Section 4.5, insert comment:
    both an author reference and a body are required, and when either is
    missing [MalformedBody] (400, "Malformed body/missing required fields")
    is signalled before the store is reached; a violated reference is the
    store's failure, passed on as raised; on success the created comment. *)
Definition insertCommentByArticleId (article_id body username : JS.value)
  : promise comment :=
  fun st =>
    if missing body || missing username
    then (Rejected (shaped 400 "Malformed body/missing required fields"), st)
    else
      match Db.insert_comment article_id body username st with
      | (Raised f, st') => (Rejected (Db.failure_object f), st')
      | (Rows row, st') => (Fulfilled row, st')
      end.

(** Modelled from the spec: [updateArticleById] of
    [models/articles.models.js] is missing. Section 4.5, update article
    votes: an absent delta is [MalformedBody]; otherwise one atomic
    [votes = votes + delta]; zero rows affected is [NotFound]; a delta
    that is not integer-shaped is the store's failure, passed on. *)
Definition updateArticleById (article_id inc_votes : JS.value)
  : promise article :=
  fun st =>
    if missing inc_votes
    then (Rejected (shaped 400 "Malformed body/missing required fields"), st)
    else
      match Db.update_article_votes article_id inc_votes st with
      | (Raised f, st') => (Rejected (Db.failure_object f), st')
      | (Rows [], st') =>
          (Rejected (shaped 404 "Article ID does not exist"), st')
      | (Rows (row :: _), st') => (Fulfilled row, st')
      end.

(** Modelled from the spec: [deletingCommentFromDb] of
    [models/articles.models.js] is missing. Section 4.5, delete comment:
    delete by id; zero rows affected is [NotFound] (404, "Comment does not
    exist"); on success nothing is returned. *)
Definition deletingCommentFromDb (comment_id : JS.value) : promise unit :=
  fun st =>
    match Db.delete_comment comment_id st with
    | (Raised f, st') => (Rejected (Db.failure_object f), st')
    | (Rows [], st') => (Rejected (shaped 404 "Comment does not exist"), st')
    | (Rows (_ :: _), st') => (Fulfilled tt, st')
    end.

(** Modelled from the spec: the identifier shape of section 4.1, "a
    positive-integer-like numeric string": one or more decimal digits. No
    function of the sources at hand computes it. *)
Definition positive_integer_like (tok : string) : bool :=
  match parse_digits tok with
  | Some _ => true
  | None => false
  end.

(** ** controllers/error.controllers.js *)

Definition badUrlHandling : handler :=
  fun request st =>
    (Send (Response (JS.Num 404) (MsgBody (JS.Str "Invalid URL"))), st).

Definition customErrorMiddleware (err : gmap string JS.value) : action :=
  let status := JS.get err "status" in
  let msg := JS.get err "msg" in
  if JS.truthy (JS.and status msg)
  then Send (Response status (MsgBody msg))
  else Next err.

Definition handlePsqlErrorsMiddleware (err : gmap string JS.value) : action :=
  if JS.strict_eq (JS.get err "code") (JS.Str "22P02")
  then Send (Response (JS.Num 400) (MsgBody (JS.Str "Invalid input")))
  else Next err.

(** ** controllers/articles.controllers.js *)

Definition getAllArticles : handler :=
  fun request st =>
    let topic := JS.get_str (req_query request) "topic" in
    let sortBy := JS.get_str (req_query request) "sort_by" in
    let sortOrder := JS.get_str (req_query request) "order" in
    match fetchAllArticles topic sortBy sortOrder st with
    | (Fulfilled articles, st') =>
        (Send (Response (JS.Num 200) (ArticlesBody articles)), st')
    | (Rejected err, st') => (Next err, st')
    end.

Definition getArticlesById : handler :=
  fun request st =>
    let article_id := JS.get_str (req_params request) "article_id" in
    match fetchArticlesById article_id st with
    | (Fulfilled article, st') =>
        (Send (Response (JS.Num 200) (ArticleBody article)), st')
    | (Rejected err, st') => (Next err, st')
    end.

Definition getCommentsByArticleId : handler :=
  fun request st =>
    let article_id := JS.get_str (req_params request) "article_id" in
    match fetchArticlesById article_id st with
    | (Fulfilled _, st1) =>
        match fetchCommentsByArticleId article_id st1 with
        | (Fulfilled comments, st2) =>
            (Send (Response (JS.Num 200) (CommentsBody comments)), st2)
        | (Rejected err, st2) => (Next err, st2)
        end
    | (Rejected err, st1) => (Next err, st1)
    end.

Definition postCommentByArticleId : handler :=
  fun request st =>
    let article_id := JS.get_str (req_params request) "article_id" in
    let body := JS.get (req_body request) "body" in
    let username := JS.get (req_body request) "username" in
    match insertCommentByArticleId article_id body username st with
    | (Fulfilled comment, st') =>
        (Send (Response (JS.Num 201) (CommentBody comment)), st')
    | (Rejected err, st') => (Next err, st')
    end.

Definition patchArticleById : handler :=
  fun request st =>
    let article_id := JS.get_str (req_params request) "article_id" in
    let inc_votes := JS.get (req_body request) "inc_votes" in
    match updateArticleById article_id inc_votes st with
    | (Fulfilled article, st') =>
        (Send (Response (JS.Num 200) (ArticleBody article)), st')
    | (Rejected err, st') => (Next err, st')
    end.

Definition deleteCommentById : handler :=
  fun request st =>
    let comment_id := JS.get_str (req_params request) "comment_id" in
    match deletingCommentFromDb comment_id st with
    | (Fulfilled _, st') => (Send (Response (JS.Num 204) NoBody), st')
    | (Rejected err, st') => (Next err, st')
    end.

(** Modelled from the spec: [getTopics] of
    [controllers/topics.controllers.js] is missing; one of the thin
    handlers that await a data call and write a status code. *)
Definition getTopics : handler :=
  fun request st =>
    match fetchTopics st with
    | (Fulfilled topics, st') =>
        (Send (Response (JS.Num 200) (TopicsBody topics)), st')
    | (Rejected err, st') => (Next err, st')
    end.

(** ** The second [getArticlesById] (a controller file no route refers to)

    It tests the identifier with [isNaN] and calls [next] with a shaped
    error, but does not return: the lookup below the test runs in every
    case, so the handler may act twice. [isNaN] is the built-in of the
    language; nothing below depends on what it answers. *)

Module Unwired.
Section WithIsNaN.

Variable isNaN : JS.value -> bool.

Definition getArticlesById (request : request) (st : store)
  : list action * store :=
  let article_id := JS.get_str (req_params request) "article_id" in
  let early :=
    if isNaN article_id
    then [Next (shaped 400 "Article ID invalid - must be a number")]
    else [] in
  match fetchArticlesById article_id st with
  | (Fulfilled article, st') =>
      ((early ++ [Send (Response (JS.Num 200) (ArticleBody article))])%list,
       st')
  | (Rejected err, st') => ((early ++ [Next err])%list, st')
  end.

End WithIsNaN.
End Unwired.

(** ** app.js: the stack of layers *)

Inductive segment : Type :=
| Lit (s : string)
| Param (name : string).

(** A route path: a sequence of segments, or the catch-all ["/*"]. *)
Inductive pattern : Type :=
| Exact (segs : list segment)
| CatchAll.

Inductive layer : Type :=
| Route (m : option method) (pat : pattern) (h : handler)
| ErrorMiddleware (h : gmap string JS.value -> action).

Definition method_eqb (a b : method) : bool :=
  match a, b with
  | GET, GET | HEAD, HEAD | POST, POST | PUT, PUT | PATCH, PATCH
  | DELETE, DELETE | OPTIONS, OPTIONS => true
  | _, _ => false
  end.

Fixpoint match_segments (pat : list segment) (p : list string)
    (acc : gmap string string) : option (gmap string string) :=
  match pat, p with
  | [], [] => Some acc
  | Lit s :: pat', x :: p' =>
      if (lower s =? lower x)%string then match_segments pat' p' acc else None
  | Param n :: pat', x :: p' => match_segments pat' p' (<[n := x]> acc)
  | _, _ => None
  end.

Definition match_pattern (pat : pattern) (p : list string)
  : option (gmap string string) :=
  match pat with
  | Exact segs => match_segments segs p ∅
  | CatchAll => Some ∅
  end.

(** Whether a route registered for [m] ([None] for [app.all]) takes a
    request of method [r]. None of the routes has a handler for HEAD, so a
    HEAD request is taken by the routes for GET; what the controller hands
    to [send] is then dropped by the transport, the status is kept. *)
Definition match_method (m : option method) (r : method) : bool :=
  match m with
  | Some m' =>
      method_eqb m' (match r with
                     | HEAD => GET
                     | _ => r
                     end)
  | None => true
  end.

Definition with_params (ps : gmap string string) (r : request) : request :=
  Request (req_method r) (req_path r) ps (req_query r) (req_body r).

(** How a request leaves the application. *)
Inductive outcome : Type :=
| Responded (r : response)
| Unmatched
| Unclassified (err : gmap string JS.value).

(** Once a handler has called [next(err)], only the error middlewares
    registered after it are consulted, in order; the first that answers
    wins, and a failure none of them recognises reaches the framework's
    own fallback. *)
Fixpoint handle_error (stack : list layer) (err : gmap string JS.value)
  : outcome :=
  match stack with
  | [] => Unclassified err
  | Route _ _ _ :: rest => handle_error rest err
  | ErrorMiddleware h :: rest =>
      match h err with
      | Send r => Responded r
      | Next err' => handle_error rest err'
      end
  end.

Fixpoint handle (stack : list layer) (req : request) (st : store)
  : outcome * store :=
  match stack with
  | [] => (Unmatched, st)
  | ErrorMiddleware _ :: rest => handle rest req st
  | Route m pat h :: rest =>
      if match_method m (req_method req) then
        match match_pattern pat (req_path req) with
        | Some ps =>
            match h (with_params ps req) st with
            | (Send r, st') => (Responded r, st')
            | (Next err, st') => (handle_error rest err, st')
            end
        | None => handle rest req st
        end
      else handle rest req st
  end.

(** The layers in the order [app.js] registers them. The JSON body parser
    registered first is accounted for by [req_body]. *)
Definition routes : list layer :=
  [ Route (Some GET) (Exact [Lit "api"; Lit "topics"]) getTopics;
    Route (Some GET) (Exact [Lit "api"; Lit "articles"]) getAllArticles;
    Route (Some GET) (Exact [Lit "api"; Lit "articles"; Param "article_id"])
          getArticlesById;
    Route (Some GET)
          (Exact [Lit "api"; Lit "articles"; Param "article_id";
                  Lit "comments"])
          getCommentsByArticleId;
    Route (Some POST)
          (Exact [Lit "api"; Lit "articles"; Param "article_id";
                  Lit "comments"])
          postCommentByArticleId;
    ErrorMiddleware customErrorMiddleware;
    ErrorMiddleware handlePsqlErrorsMiddleware;
    Route None CatchAll badUrlHandling ].

Definition app : request -> store -> outcome * store := handle routes.

(** The two error middlewares in the order [app.js] registers them. *)
Definition error_chain : list layer :=
  [ ErrorMiddleware customErrorMiddleware;
    ErrorMiddleware handlePsqlErrorsMiddleware ].

(** ** Sample data *)

Definition sample_store : store :=
  Store
    [ Topic "mitch" "The man, the Mitch, the legend";
      Topic "cats" "Not dogs";
      Topic "paper" "what books are made of" ]
    [ User "butter_bridge" "jonny" "https://example.org/a.jpg";
      User "icellusedkars" "sam" "https://example.org/b.jpg" ]
    [ Article 1 "Living in the shadow of a great man" "mitch" "butter_bridge"
              "I find this existence challenging" 1594329060 100
              "https://example.org/1.jpg";
      Article 2 "Sony Vaio; or, The Laptop" "mitch" "icellusedkars"
              "Call me Mitchell." 1602828180 0 "https://example.org/2.jpg";
      Article 5 "UNCOVERED: catspiracy to bring down democracy" "cats"
              "butter_bridge" "Bastet walks amongst us" 1596464040 0
              "https://example.org/5.jpg" ]
    [ Comment 1 "Oh, I have got compassion" "butter_bridge" 1 16 1586179020;
      Comment 2 "The beautiful thing about treasure" "butter_bridge" 1 14
              1604113380;
      Comment 5 "I hate streaming noses" "icellusedkars" 5 0 1604437200 ]
    19 1700000000 [].

Definition get_request (p : list string) : request :=
  Request GET p ∅ ∅ ∅.

(** A handler with the error middlewares of [app.js] registered behind it. *)
Definition respond (h : handler) (req : request) (st : store)
  : outcome * store :=
  match h req st with
  | (Send r, st') => (Responded r, st')
  | (Next err, st') => (handle_error error_chain err, st')
  end.

(** The error middlewares of a stack, in registration order. *)
Fixpoint error_layers (stack : list layer) : list layer :=
  match stack with
  | [] => []
  | Route _ _ _ :: rest => error_layers rest
  | ErrorMiddleware h :: rest => ErrorMiddleware h :: error_layers rest
  end.

Definition invalid_input : response :=
  Response (JS.Num 400) (MsgBody (JS.Str "Invalid input")).

Definition invalid_url : response :=
  Response (JS.Num 404) (MsgBody (JS.Str "Invalid URL")).

(** Requests of the behaviour tests ([__tests__/app.test.js]). *)
Definition comment_fields : gmap string JS.value :=
  <["username" := JS.Str "butter_bridge"]>
    (<["body" := JS.Str "I am 100% sure that we're not completely sure."]> ∅).

Definition post_comment_request (tok : string) (b : gmap string JS.value)
  : request :=
  Request POST ["api"; "articles"; tok; "comments"] ∅ ∅ b.

Definition patch_votes_request : request :=
  Request PATCH ["api"; "articles"; "5"] ∅ ∅ (<["inc_votes" := JS.Num (-100)]> ∅).

Definition delete_comment_request : request :=
  Request DELETE ["api"; "comments"; "5"] ∅ ∅ ∅.

(** A shaped error that also carries the code of the second stage. *)
Definition shaped_with_code : gmap string JS.value :=
  <["code" := JS.Str "22P02"]> (shaped 404 "Article ID does not exist").

Definition article_not_found : response :=
  Response (JS.Num 404) (MsgBody (JS.Str "Article ID does not exist")).

Definition malformed_body : response :=
  Response (JS.Num 400)
           (MsgBody (JS.Str "Malformed body/missing required fields")).

Definition invalid_sort : response :=
  Response (JS.Num 400) (MsgBody (JS.Str "Invalid sort by query")).

Definition articles_request (q : gmap string string) : request :=
  Request GET ["api"; "articles"] ∅ q ∅.

(** The two error middlewares registered the other way round. *)
Definition swapped_chain : list layer :=
  [ ErrorMiddleware handlePsqlErrorsMiddleware;
    ErrorMiddleware customErrorMiddleware ].

(** * Properties *)

(** ** JavaScript values and objects *)

Lemma truthy_and (a b : JS.value) :
  JS.truthy (JS.and a b) = JS.truthy a && JS.truthy b.
Proof.
  unfold JS.and. destruct (JS.truthy a) eqn:Ha; simpl; auto.
Qed.

Lemma get_Some (o : gmap string JS.value) (k : string) (v : JS.value) :
  o !! k = Some v -> JS.get o k = v.
Proof. intros H. unfold JS.get. now rewrite H. Qed.

Lemma get_None (o : gmap string JS.value) (k : string) :
  o !! k = None -> JS.get o k = JS.Undefined.
Proof. intros H. unfold JS.get. now rewrite H. Qed.

Lemma strict_eq_Str (v : JS.value) (s : string) :
  JS.strict_eq v (JS.Str s) = true <-> v = JS.Str s.
Proof.
  destruct v; simpl; split; try discriminate.
  - intros H. apply String.eqb_eq in H. now subst.
  - intros [= ->]. apply String.eqb_refl.
Qed.

(** ** The two classification stages *)

Lemma customErrorMiddleware_shaped (err : gmap string JS.value) :
  JS.truthy (JS.get err "status") = true ->
  JS.truthy (JS.get err "msg") = true ->
  customErrorMiddleware err =
  Send (Response (JS.get err "status") (MsgBody (JS.get err "msg"))).
Proof.
  intros Hs Hm. unfold customErrorMiddleware.
  now rewrite truthy_and, Hs, Hm.
Qed.

Lemma customErrorMiddleware_unshaped (err : gmap string JS.value) :
  JS.truthy (JS.get err "status") = false \/
  JS.truthy (JS.get err "msg") = false ->
  customErrorMiddleware err = Next err.
Proof.
  intros H. unfold customErrorMiddleware. rewrite truthy_and.
  destruct H as [-> | ->]; [reflexivity|].
  now rewrite andb_false_r.
Qed.

Lemma error_chain_unfold (err : gmap string JS.value) :
  handle_error error_chain err =
  match customErrorMiddleware err with
  | Send r => Responded r
  | Next err' =>
      match handlePsqlErrorsMiddleware err' with
      | Send r => Responded r
      | Next err'' => Unclassified err''
      end
  end.
Proof. reflexivity. Qed.

(** What the chain does with a failure the first stage does not recognise. *)
Lemma error_chain_unshaped (err : gmap string JS.value) :
  JS.truthy (JS.get err "status") = false \/
  JS.truthy (JS.get err "msg") = false ->
  handle_error error_chain err =
  if JS.strict_eq (JS.get err "code") (JS.Str "22P02")
  then Responded invalid_input
  else Unclassified err.
Proof.
  intros H. rewrite error_chain_unfold, customErrorMiddleware_unshaped by done.
  unfold handlePsqlErrorsMiddleware.
  now destruct (JS.strict_eq _ _).
Qed.

(** The layers [app.js] registers for failures are exactly the chain, in
    that order, and the catch-all route registered after them does not take
    part in error handling. *)
Lemma error_layers_routes : error_layers routes = error_chain.
Proof. reflexivity. Qed.

Lemma handle_error_error_layers (stack : list layer)
    (err : gmap string JS.value) :
  handle_error stack err = handle_error (error_layers stack) err.
Proof.
  revert err. induction stack as [|[m pat h|h] rest IH]; intros err; simpl.
  - reflexivity.
  - apply IH.
  - destruct (h err); [reflexivity | apply IH].
Qed.

(** ** Failure objects of the store *)

Lemma failure_object_status (f : store_failure) :
  Db.failure_object f !! "status" = None.
Proof. destruct f; reflexivity. Qed.

Lemma failure_object_msg (f : store_failure) :
  Db.failure_object f !! "msg" = None.
Proof. destruct f; reflexivity. Qed.

Lemma failure_object_code (f : store_failure) :
  Db.failure_object f !! "code" = Some (JS.Str (Db.sqlstate f)).
Proof. destruct f; reflexivity. Qed.

Lemma failure_object_detail (f : store_failure) :
  Db.failure_object f !! "detail" = JS.Str <$> Db.detail f.
Proof. destruct f; reflexivity. Qed.

(** A failure raised by the store is never taken for a shaped error; the
    chain answers it only when its code is 22P02. *)
Lemma error_chain_store_failure (f : store_failure) :
  handle_error error_chain (Db.failure_object f) =
  if (Db.sqlstate f =? "22P02")%string
  then Responded invalid_input
  else Unclassified (Db.failure_object f).
Proof.
  rewrite error_chain_unshaped.
  - now rewrite (get_Some _ _ _ (failure_object_code f)).
  - left. now rewrite (get_None _ _ (failure_object_status f)).
Qed.

Lemma error_chain_shaped (code : Z) (msg : string) :
  code <> 0 -> msg <> "" ->
  handle_error error_chain (shaped code msg) =
  Responded (Response (JS.Num code) (MsgBody (JS.Str msg))).
Proof.
  intros Hc Hm. rewrite error_chain_unfold.
  rewrite customErrorMiddleware_shaped.
  - reflexivity.
  - change (JS.get (shaped code msg) "status") with (JS.Num code).
    simpl. now apply negb_true_iff, Z.eqb_neq.
  - change (JS.get (shaped code msg) "msg") with (JS.Str msg).
    simpl. now apply negb_true_iff, String.eqb_neq.
Qed.

(** ** Stage 1: shaped application errors *)

(** C7. A failure object that carries a status and a message is answered by
    the first stage with exactly that status and that message, whatever
    else it carries (a code the second stage knows included): the first
    stage is registered, and consulted, before the store-error classifier.
    A failure object that lacks either field is handed unchanged to the
    next stage. *)
Theorem shaped_error_is_emitted_verbatim (err : gmap string JS.value) :
  (forall s m : JS.value,
      err !! "status" = Some s -> err !! "msg" = Some m ->
      JS.truthy s = true -> JS.truthy m = true ->
      customErrorMiddleware err = Send (Response s (MsgBody m)) /\
      handle_error error_chain err = Responded (Response s (MsgBody m))) /\
  (err !! "status" = None \/ err !! "msg" = None ->
      customErrorMiddleware err = Next err /\
      handle_error error_chain err =
      handle_error [ErrorMiddleware handlePsqlErrorsMiddleware] err) /\
  error_layers routes =
  [ErrorMiddleware customErrorMiddleware;
   ErrorMiddleware handlePsqlErrorsMiddleware].
Proof.
  split; [|split].
  - intros s m Hs Hm Ts Tm.
    apply get_Some in Hs, Hm.
    assert (H : customErrorMiddleware err = Send (Response s (MsgBody m))).
    { rewrite <- Hs, <- Hm. apply customErrorMiddleware_shaped; congruence. }
    split; [exact H|].
    now rewrite error_chain_unfold, H.
  - intros H.
    assert (Hc : customErrorMiddleware err = Next err).
    { apply customErrorMiddleware_unshaped.
      destruct H as [H | H]; apply get_None in H; rewrite H; auto. }
    split; [exact Hc|].
    now rewrite error_chain_unfold, Hc.
  - reflexivity.
Qed.

Lemma shaped_error_is_emitted_verbatim_witness :
  shaped_with_code !! "status" = Some (JS.Num 404) /\
  shaped_with_code !! "msg" = Some (JS.Str "Article ID does not exist") /\
  shaped_with_code !! "code" = Some (JS.Str "22P02") /\
  handle_error error_chain shaped_with_code =
  Responded (Response (JS.Num 404)
                      (MsgBody (JS.Str "Article ID does not exist"))).
Proof.
  do 3 (split; [reflexivity|]).
  apply (proj1 (shaped_error_is_emitted_verbatim shaped_with_code)
               (JS.Num 404) (JS.Str "Article ID does not exist"));
    reflexivity.
Defined.

(** C10. The first stage recognises a failure object only when its status
    and its msg are both truthy. A failure object whose status is 0, whose
    msg is the empty string, or that lacks either field is not answered by
    the first stage: it reaches the store-error classifier, which answers
    400 "Invalid input" when the code is 22P02 and otherwise lets the
    failure leave the chain unclassified. *)
Theorem shaped_recognition_needs_truthy_fields (err : gmap string JS.value) :
  (forall r, customErrorMiddleware err = Send r ->
             JS.truthy (JS.get err "status") = true /\
             JS.truthy (JS.get err "msg") = true) /\
  (JS.truthy (JS.get err "status") = false \/
   JS.truthy (JS.get err "msg") = false ->
   customErrorMiddleware err = Next err /\
   handle_error error_chain err =
   if JS.strict_eq (JS.get err "code") (JS.Str "22P02")
   then Responded invalid_input
   else Unclassified err) /\
  (err !! "status" = Some (JS.Num 0) \/ err !! "msg" = Some (JS.Str "") \/
   err !! "status" = None \/ err !! "msg" = None ->
   JS.truthy (JS.get err "status") = false \/
   JS.truthy (JS.get err "msg") = false).
Proof.
  split; [|split].
  - intros r H. unfold customErrorMiddleware in H.
    rewrite truthy_and in H.
    destruct (JS.truthy (JS.get err "status")),
             (JS.truthy (JS.get err "msg")); simpl in H;
      try discriminate; auto.
  - intros H. split.
    + now apply customErrorMiddleware_unshaped.
    + now apply error_chain_unshaped.
  - intros [H | [H | [H | H]]].
    + left. now rewrite (get_Some _ _ _ H).
    + right. now rewrite (get_Some _ _ _ H).
    + left. now rewrite (get_None _ _ H).
    + right. now rewrite (get_None _ _ H).
Qed.

Lemma shaped_recognition_needs_truthy_fields_witness :
  JS.truthy (JS.get (shaped 0 "Article ID does not exist") "status") = false /\
  customErrorMiddleware (shaped 0 "Article ID does not exist") =
  Next (shaped 0 "Article ID does not exist") /\
  handle_error error_chain (shaped 0 "Article ID does not exist") =
  Unclassified (shaped 0 "Article ID does not exist").
Proof.
  split; [reflexivity|].
  apply (proj1 (proj2 (shaped_recognition_needs_truthy_fields
                         (shaped 0 "Article ID does not exist")))).
  left. reflexivity.
Defined.

(** An empty message is not emitted either, even with a proper status; with
    the code 22P02 the second stage answers in its place. *)
Example empty_msg_reaches_second_stage :
  handle_error error_chain (<["code" := JS.Str "22P02"]> (shaped 404 "")) =
  Responded invalid_input.
Proof. reflexivity. Qed.

Example status_only_is_not_shaped :
  handle_error error_chain (<["status" := JS.Num 404]> ∅) =
  Unclassified (<["status" := JS.Num 404]> ∅).
Proof. reflexivity. Qed.

(** ** Routing *)

(** C1 (defect of [app.js]). No route is registered for PATCH or DELETE:
    whatever its path, parameters and body, such a request runs past every
    route of the stack and is answered by the catch-all with 404 "Invalid
    URL"; the store is not touched. The two requests of the behaviour tests,
    PATCH /api/articles/5 with [inc_votes = -100] and DELETE
    /api/comments/5, are among them. *)
Theorem patch_and_delete_reach_no_handler :
  (forall (p : list string) (ps q : gmap string string)
          (b : gmap string JS.value) (st : store),
      app (Request PATCH p ps q b) st = (Responded invalid_url, st) /\
      app (Request DELETE p ps q b) st = (Responded invalid_url, st)) /\
  app patch_votes_request sample_store =
  (Responded invalid_url, sample_store) /\
  app delete_comment_request sample_store =
  (Responded invalid_url, sample_store).
Proof.
  split; [|split]; [intros p ps q b st; split| |]; reflexivity.
Qed.

(** The two handlers exist in [articles.controllers.js] and do what the
    endpoint surface says once a request is handed to them. *)
Example patchArticleById_invoked :
  fst (respond patchArticleById
         (with_params (<["article_id" := "1"]> ∅) patch_votes_request)
         sample_store) =
  Responded
    (Response (JS.Num 200)
       (ArticleBody
          (Article 1 "Living in the shadow of a great man" "mitch"
                   "butter_bridge" "I find this existence challenging"
                   1594329060 0 "https://example.org/1.jpg"))).
Proof. reflexivity. Qed.

Example deleteCommentById_invoked :
  let req := with_params (<["comment_id" := "5"]> ∅) delete_comment_request in
  let once := respond deleteCommentById req sample_store in
  fst once = Responded (Response (JS.Num 204) NoBody) /\
  List.map comment_id (comments (snd once)) = [1; 2] /\
  fst (respond deleteCommentById req (snd once)) =
  Responded (Response (JS.Num 404) (MsgBody (JS.Str "Comment does not exist"))).
Proof. repeat split; reflexivity. Qed.

(** ** Stage 2: failures raised by the store *)

(** C2 (defect of [handlePsqlErrorsMiddleware]). A foreign-key violation
    raised by the store carries the code 23503 and the store's description
    in [detail], and neither [status] nor [msg]. The first stage passes it
    on, the second stage knows only the code 22P02, so the failure leaves
    the chain unclassified: no 404 is sent and the description is not
    surfaced. The request of the behaviour tests, a comment posted to the
    article 5432 that does not exist, ends that way. *)
Theorem foreign_key_violation_is_not_classified :
  (forall col v table : string,
      handle_error error_chain
        (Db.failure_object (ForeignKeyViolation col v table)) =
      Unclassified (Db.failure_object (ForeignKeyViolation col v table))) /\
  fst (app (post_comment_request "5432" comment_fields) sample_store) =
  Unclassified
    (Db.failure_object (ForeignKeyViolation "article_id" "5432" "articles")) /\
  JS.get (Db.failure_object (ForeignKeyViolation "article_id" "5432" "articles"))
         "detail" =
  JS.Str ("Key (article_id)=(5432) is not present in table "
          ++ quoted "articles" ++ ".").
Proof.
  split; [|split].
  - intros col v table. now rewrite error_chain_store_failure.
  - reflexivity.
  - reflexivity.
Qed.

(** C3 (defect of [handlePsqlErrorsMiddleware]). An identifier made of
    digits but beyond the 32-bit integer type makes the store raise its
    out-of-range failure, code 22003. Like every store failure whose code
    is not 22P02 it passes both stages: no 400 with an out-of-range message
    is sent. The request of the behaviour tests, the comments of article
    9332879283, ends that way. *)
Theorem out_of_range_identifier_is_not_classified :
  (forall tok : string,
      handle_error error_chain
        (Db.failure_object (NumericValueOutOfRange tok)) =
      Unclassified (Db.failure_object (NumericValueOutOfRange tok))) /\
  positive_integer_like "9332879283" = true /\
  Db.int4_in (JS.Str "9332879283") =
  Db.Int4Raise (NumericValueOutOfRange "9332879283") /\
  fst (app (get_request ["api"; "articles"; "9332879283"; "comments"])
           sample_store) =
  Unclassified (Db.failure_object (NumericValueOutOfRange "9332879283")).
Proof.
  split; [|repeat split; reflexivity].
  intros tok. now rewrite error_chain_store_failure.
Qed.

(** ** The wired routes *)

Lemma app_get_articles (ps q : gmap string string) (b : gmap string JS.value)
    (st : store) :
  app (Request GET ["api"; "articles"] ps q b) st =
  respond getAllArticles (Request GET ["api"; "articles"] ∅ q b) st.
Proof. reflexivity. Qed.

Lemma app_get_article (tok : string) (ps q : gmap string string)
    (b : gmap string JS.value) (st : store) :
  app (Request GET ["api"; "articles"; tok] ps q b) st =
  respond getArticlesById
    (Request GET ["api"; "articles"; tok] (<["article_id" := tok]> ∅) q b) st.
Proof. reflexivity. Qed.

Lemma app_get_comments (tok : string) (ps q : gmap string string)
    (b : gmap string JS.value) (st : store) :
  app (Request GET ["api"; "articles"; tok; "comments"] ps q b) st =
  respond getCommentsByArticleId
    (Request GET ["api"; "articles"; tok; "comments"]
             (<["article_id" := tok]> ∅) q b) st.
Proof. reflexivity. Qed.

Lemma app_post_comment (tok : string) (ps q : gmap string string)
    (b : gmap string JS.value) (st : store) :
  app (Request POST ["api"; "articles"; tok; "comments"] ps q b) st =
  respond postCommentByArticleId
    (Request POST ["api"; "articles"; tok; "comments"]
             (<["article_id" := tok]> ∅) q b) st.
Proof. reflexivity. Qed.

Lemma get_str_insert (k v : string) (m : gmap string string) :
  JS.get_str (<[k := v]> m) k = JS.Str v.
Proof. unfold JS.get_str. now rewrite lookup_insert_eq. Qed.

Lemma get_str_Some (m : gmap string string) (k v : string) :
  m !! k = Some v -> JS.get_str m k = JS.Str v.
Proof. intros H. unfold JS.get_str. now rewrite H. Qed.

Lemma get_str_None (m : gmap string string) (k : string) :
  m !! k = None -> JS.get_str m k = JS.Undefined.
Proof. intros H. unfold JS.get_str. now rewrite H. Qed.

(** ** The existence resolver behind the controllers *)

Lemma int4_in_non_numeric (tok : string) :
  Db.read_int4 tok = None ->
  Db.int4_in (JS.Str tok) = Db.Int4Raise (InvalidTextRepresentation tok).
Proof. intros H. unfold Db.int4_in. now rewrite H. Qed.

Lemma fetchArticlesById_raised (id : JS.value) (f : store_failure)
    (st : store) :
  Db.int4_in id = Db.Int4Raise f ->
  fetchArticlesById id st =
  (Rejected (Db.failure_object f), Db.issue (SelectArticleById id) st).
Proof.
  intros H. unfold fetchArticlesById, Db.select_article_by_id.
  now rewrite H.
Qed.

Lemma fetchArticlesById_absent (id : JS.value) (n : Z) (st : store) :
  Db.int4_in id = Db.Int4 n ->
  Db.articles_with_id n st = [] ->
  fetchArticlesById id st =
  (Rejected (shaped 404 "Article ID does not exist"),
   Db.issue (SelectArticleById id) st).
Proof.
  intros H E. unfold fetchArticlesById, Db.select_article_by_id.
  now rewrite H, E.
Qed.

Lemma fetchArticlesById_present (id : JS.value) (n : Z) (st : store) :
  Db.int4_in id = Db.Int4 n ->
  Db.articles_with_id n st <> [] ->
  exists row,
    fetchArticlesById id st =
    (Fulfilled row, Db.issue (SelectArticleById id) st).
Proof.
  intros H E. unfold fetchArticlesById, Db.select_article_by_id.
  rewrite H. destruct (Db.articles_with_id n st) as [|row rows]; [done|].
  now exists row.
Qed.

Lemma fetchArticlesById_null (id : JS.value) (st : store) :
  Db.int4_in id = Db.Int4Null ->
  fetchArticlesById id st =
  (Rejected (shaped 404 "Article ID does not exist"),
   Db.issue (SelectArticleById id) st).
Proof.
  intros H. unfold fetchArticlesById, Db.select_article_by_id.
  now rewrite H.
Qed.

Lemma fetchCommentsByArticleId_none (id : JS.value) (n : Z) (st : store) :
  Db.int4_in id = Db.Int4 n ->
  Db.comments_of_article n st = [] ->
  fetchCommentsByArticleId id st =
  (Fulfilled [], Db.issue (SelectCommentsByArticleId id) st).
Proof.
  intros H E.
  unfold fetchCommentsByArticleId, Db.select_comments_by_article_id.
  now rewrite H, E.
Qed.

Lemma fetchCommentsByArticleId_statements (id : JS.value) (st : store) :
  statements (snd (fetchCommentsByArticleId id st)) =
  (statements st ++ [SelectCommentsByArticleId id])%list.
Proof.
  unfold fetchCommentsByArticleId, Db.select_comments_by_article_id.
  now destruct (Db.int4_in id).
Qed.

(** ** Comments of an article *)

(** C4. GET /api/articles/:article_id/comments looks the article up first;
    the comments are asked for only when that lookup found a row, and then
    as the one further statement. When no article has the identifier the
    answer is 404 "Article ID does not exist" and the comments are never
    asked for; when the article exists and no comment refers to it the
    answer is 200 with the empty sequence. *)
Theorem comments_follow_article_lookup (tok : string)
    (ps q : gmap string string) (b : gmap string JS.value) (st : store) :
  let req := Request GET ["api"; "articles"; tok; "comments"] ps q b in
  let id := JS.Str tok in
  (exists later,
      statements (snd (app req st)) =
      (statements st ++ SelectArticleById id :: later)%list /\
      (later = [] \/
       later = [SelectCommentsByArticleId id] /\
       exists n, Db.int4_in id = Db.Int4 n /\
                 Db.articles_with_id n st <> [])) /\
  (forall n, Db.int4_in id = Db.Int4 n ->
             Db.articles_with_id n st = [] ->
             app req st =
             (Responded article_not_found,
              Db.issue (SelectArticleById id) st)) /\
  (forall n, Db.int4_in id = Db.Int4 n ->
             Db.articles_with_id n st <> [] ->
             Db.comments_of_article n st = [] ->
             app req st =
             (Responded (Response (JS.Num 200) (CommentsBody [])),
              Db.issue (SelectCommentsByArticleId id)
                       (Db.issue (SelectArticleById id) st))).
Proof.
  intros req id. subst req.
  rewrite app_get_comments.
  unfold respond, getCommentsByArticleId. cbn [req_params].
  rewrite get_str_insert. fold id.
  split; [|split].
  - destruct (Db.int4_in id) as [n| |f] eqn:Hid.
    + destruct (Db.articles_with_id n st) as [|row rows] eqn:Hrows.
      * rewrite (fetchArticlesById_absent id n st Hid Hrows).
        exists []. split; [reflexivity | now left].
      * destruct (fetchArticlesById_present id n st Hid) as [r ->].
        { now rewrite Hrows. }
        exists [SelectCommentsByArticleId id]. split.
        -- pose proof (fetchCommentsByArticleId_statements id
                         (Db.issue (SelectArticleById id) st)) as Hs.
           destruct (fetchCommentsByArticleId id _) as [[rows'|err] st2];
             simpl in Hs |- *; rewrite Hs; simpl;
             now rewrite <- app_assoc.
        -- right. split; [reflexivity|]. exists n.
           split; [reflexivity | now rewrite Hrows].
    + rewrite (fetchArticlesById_null id st Hid).
      exists []. split; [reflexivity | now left].
    + rewrite (fetchArticlesById_raised id f st Hid).
      exists []. split; [reflexivity | now left].
  - intros n Hid Hrows.
    rewrite (fetchArticlesById_absent id n st Hid Hrows).
    now rewrite error_chain_shaped.
  - intros n Hid Hrows Hnone.
    destruct (fetchArticlesById_present id n st Hid Hrows) as [r ->].
    now rewrite (fetchCommentsByArticleId_none id n
                   (Db.issue (SelectArticleById id) st) Hid Hnone).
Qed.

Lemma comments_follow_article_lookup_witness :
  (Db.int4_in (JS.Str "5667") = Db.Int4 5667 /\
   Db.articles_with_id 5667 sample_store = [] /\
   fst (app (get_request ["api"; "articles"; "5667"; "comments"])
            sample_store) =
   Responded article_not_found) /\
  (Db.int4_in (JS.Str "2") = Db.Int4 2 /\
   Db.articles_with_id 2 sample_store <> [] /\
   Db.comments_of_article 2 sample_store = [] /\
   fst (app (get_request ["api"; "articles"; "2"; "comments"])
            sample_store) =
   Responded (Response (JS.Num 200) (CommentsBody []))).
Proof.
  split.
  - do 2 (split; [reflexivity|]).
    rewrite (proj1 (proj2 (comments_follow_article_lookup
                             "5667" ∅ ∅ ∅ sample_store)) 5667);
      reflexivity.
  - split; [reflexivity|]. split; [discriminate|]. split; [reflexivity|].
    rewrite (proj2 (proj2 (comments_follow_article_lookup
                             "2" ∅ ∅ ∅ sample_store)) 2);
      [reflexivity | reflexivity | discriminate | reflexivity].
Defined.

(** ** Identifiers the store cannot read as integers *)

Lemma error_chain_invalid_text (tok : string) :
  handle_error error_chain
    (Db.failure_object (InvalidTextRepresentation tok)) =
  Responded invalid_input.
Proof. now rewrite error_chain_store_failure. Qed.

Lemma get_article_non_numeric (tok : string) (ps q : gmap string string)
    (b : gmap string JS.value) (st : store) :
  Db.read_int4 tok = None ->
  app (Request GET ["api"; "articles"; tok] ps q b) st =
  (Responded invalid_input, Db.issue (SelectArticleById (JS.Str tok)) st).
Proof.
  intros H. rewrite app_get_article.
  unfold respond, getArticlesById. cbn [req_params].
  rewrite get_str_insert.
  rewrite (fetchArticlesById_raised _ _ st (int4_in_non_numeric tok H)).
  now rewrite error_chain_invalid_text.
Qed.

Lemma get_comments_non_numeric (tok : string) (ps q : gmap string string)
    (b : gmap string JS.value) (st : store) :
  Db.read_int4 tok = None ->
  app (Request GET ["api"; "articles"; tok; "comments"] ps q b) st =
  (Responded invalid_input, Db.issue (SelectArticleById (JS.Str tok)) st).
Proof.
  intros H. rewrite app_get_comments.
  unfold respond, getCommentsByArticleId. cbn [req_params].
  rewrite get_str_insert.
  rewrite (fetchArticlesById_raised _ _ st (int4_in_non_numeric tok H)).
  now rewrite error_chain_invalid_text.
Qed.

Lemma post_comment_non_numeric (tok : string) (ps q : gmap string string)
    (b : gmap string JS.value) (st : store) :
  Db.read_int4 tok = None ->
  missing (JS.get b "body") = false ->
  missing (JS.get b "username") = false ->
  app (Request POST ["api"; "articles"; tok; "comments"] ps q b) st =
  (Responded invalid_input,
   Db.issue (InsertComment (JS.Str tok) (JS.get b "body")
                           (JS.get b "username")) st).
Proof.
  intros H Hb Hu. rewrite app_post_comment.
  unfold respond, postCommentByArticleId. cbn [req_params req_body].
  rewrite get_str_insert.
  unfold insertCommentByArticleId, Db.insert_comment.
  rewrite Hb, Hu, (int4_in_non_numeric tok H). cbn [orb].
  now rewrite error_chain_invalid_text.
Qed.

Lemma patch_article_non_numeric (req : request) (st : store) (tok : string)
    (d : Z) :
  req_params req !! "article_id" = Some tok ->
  Db.read_int4 tok = None ->
  Db.int4_in (JS.get (req_body req) "inc_votes") = Db.Int4 d ->
  respond patchArticleById req st =
  (Responded invalid_input,
   Db.issue (UpdateArticleVotes (JS.Str tok)
                                (JS.get (req_body req) "inc_votes")) st).
Proof.
  intros Hp H Hd. unfold respond, patchArticleById.
  rewrite (get_str_Some _ _ _ Hp).
  unfold updateArticleById, Db.update_article_votes.
  rewrite Hd, (int4_in_non_numeric tok H).
  destruct (JS.get (req_body req) "inc_votes"); try discriminate;
    cbn [missing]; now rewrite error_chain_invalid_text.
Qed.

Lemma delete_comment_non_numeric (req : request) (st : store)
    (tok : string) :
  req_params req !! "comment_id" = Some tok ->
  Db.read_int4 tok = None ->
  respond deleteCommentById req st =
  (Responded invalid_input, Db.issue (DeleteComment (JS.Str tok)) st).
Proof.
  intros Hp H. unfold respond, deleteCommentById.
  rewrite (get_str_Some _ _ _ Hp).
  unfold deletingCommentFromDb, Db.delete_comment.
  rewrite (int4_in_non_numeric tok H).
  now rewrite error_chain_invalid_text.
Qed.

(** C5 (defect of [app.js], the one of C1). The mapping itself is in place:
    the store's invalid-text-representation failure is answered 400
    "Invalid input", and GET /api/articles/pineapple gets that answer. But a
    comment identifier occurs only in DELETE /api/comments/:comment_id, and
    an article identifier under PATCH only in PATCH
    /api/articles/:article_id, and no route is registered for either:
    whatever the identifier, numeric or not, the answer is 404 "Invalid
    URL". DELETE /api/comments/pineapple and PATCH /api/articles/pineapple,
    two requests of the behaviour tests, are answered that way, although the
    controllers would lead to 400 "Invalid input" once handed the request. *)
Theorem non_numeric_comment_id_meets_no_route :
  (forall (tok : string) (ps q : gmap string string)
          (b : gmap string JS.value) (st : store),
      app (Request DELETE ["api"; "comments"; tok] ps q b) st =
      (Responded invalid_url, st) /\
      app (Request PATCH ["api"; "articles"; tok] ps q b) st =
      (Responded invalid_url, st)) /\
  app (Request DELETE ["api"; "comments"; "pineapple"] ∅ ∅ ∅) sample_store =
  (Responded invalid_url, sample_store) /\
  app (Request PATCH ["api"; "articles"; "pineapple"] ∅ ∅
               (<["inc_votes" := JS.Num 1]> ∅)) sample_store =
  (Responded invalid_url, sample_store) /\
  fst (respond deleteCommentById
         (with_params (<["comment_id" := "pineapple"]> ∅)
                      delete_comment_request)
         sample_store) =
  Responded invalid_input /\
  fst (app (get_request ["api"; "articles"; "pineapple"]) sample_store) =
  Responded invalid_input /\
  (forall tok : string,
      handle_error error_chain
        (Db.failure_object (InvalidTextRepresentation tok)) =
      Responded invalid_input).
Proof.
  split; [|split; [|split; [|split; [|split]]]].
  - intros tok ps q b st. split; reflexivity.
  - reflexivity.
  - reflexivity.
  - reflexivity.
  - reflexivity.
  - apply error_chain_invalid_text.
Qed.

(** ** Where identifiers are checked *)

(** On the wired route the identifier is handed to the lookup as it came:
    GET /api/articles/pineapple sends the store its one statement, and 400
    "Invalid input" is what the chain makes of the store's failure. *)
Example unreadable_identifier_is_sent_to_the_store :
  Db.read_int4 "pineapple" = None /\
  app (get_request ["api"; "articles"; "pineapple"]) sample_store =
  (Responded invalid_input,
   Db.issue (SelectArticleById (JS.Str "pineapple")) sample_store).
Proof. split; reflexivity. Qed.

(** Signed identifiers and identifiers between white space are integers to
    the store: they are looked up like any other. *)
Example signed_identifiers_are_looked_up :
  fst (app (get_request ["api"; "articles"; "-1"]) sample_store) =
  Responded article_not_found /\
  fst (app (get_request ["api"; "articles"; "+1"; "comments"])
           sample_store) =
  fst (app (get_request ["api"; "articles"; "1"; "comments"]) sample_store) /\
  fst (app (get_request ["api"; "articles"; " 5667 "]) sample_store) =
  Responded article_not_found.
Proof. repeat split; reflexivity. Qed.


(** ** Posting a comment *)

(** C8. A comment posted without an author reference or without a body
    (the empty payload included) is answered 400 "Malformed body/missing
    required fields", whatever the article identifier; the store is left
    exactly as it was: it is sent no statement and no row is inserted. *)
Theorem comment_without_required_fields_is_malformed (tok : string)
    (ps q : gmap string string) (b : gmap string JS.value) (st : store) :
  JS.get b "username" = JS.Undefined \/ JS.get b "body" = JS.Undefined ->
  app (Request POST ["api"; "articles"; tok; "comments"] ps q b) st =
  (Responded malformed_body, st).
Proof.
  intros H. rewrite app_post_comment.
  unfold respond, postCommentByArticleId. cbn [req_params req_body].
  unfold insertCommentByArticleId.
  assert (Hm : missing (JS.get b "body") || missing (JS.get b "username")
               = true).
  { destruct H as [-> | ->]; [apply orb_true_r | reflexivity]. }
  rewrite Hm. unfold malformed_body.
  now rewrite error_chain_shaped.
Qed.

Lemma comment_without_required_fields_is_malformed_witness :
  JS.get (∅ : gmap string JS.value) "username" = JS.Undefined /\
  app (post_comment_request "5" ∅) sample_store =
  (Responded malformed_body, sample_store).
Proof.
  split; [reflexivity|].
  apply (comment_without_required_fields_is_malformed
           "5" ∅ ∅ ∅ sample_store).
  left. reflexivity.
Defined.

Example comment_without_body_inserts_nothing :
  let b : gmap string JS.value := <["username" := JS.Str "hi"]> ∅ in
  comments (snd (app (post_comment_request "5" b) sample_store)) =
  comments sample_store /\
  statements (snd (app (post_comment_request "5" b) sample_store)) = [].
Proof. split; reflexivity. Qed.

Example comment_with_both_fields_is_created :
  fst (app (post_comment_request "5" comment_fields) sample_store) =
  Responded
    (Response (JS.Num 201)
       (CommentBody
          (Comment 19 "I am 100% sure that we're not completely sure."
                   "butter_bridge" 5 0 1700000000))).
Proof. reflexivity. Qed.

(** ** Listing articles *)

Lemma allowed_sort_columns_eq :
  allowed_sort_columns =
  ["author"; "title"; "article_id"; "topic"; "created_at"; "votes";
   "comment_count"].
Proof. reflexivity. Qed.

Lemma resolve_sort_column_allowed (s : string) :
  In s allowed_sort_columns ->
  exists col, resolve_sort_column s = Some col /\ sort_column_name col = s.
Proof.
  rewrite allowed_sort_columns_eq. simpl.
  intros [<- | [<- | [<- | [<- | [<- | [<- | [<- | []]]]]]]];
    eexists; split; reflexivity.
Qed.

Lemma resolve_sort_column_not_allowed (s : string) :
  ~ In s allowed_sort_columns -> resolve_sort_column s = None.
Proof.
  rewrite allowed_sort_columns_eq. intros H.
  unfold resolve_sort_column, all_sort_columns.
  cbn [List.find sort_column_name].
  repeat match goal with
         | |- context [String.eqb ?a s] =>
             destruct (String.eqb_spec a s) as [<- | _];
             [exfalso; apply H; simpl; tauto |]
         end.
  reflexivity.
Qed.

Lemma select_articles_rows (tp : option string) (col : sort_column)
    (dir : string) (st : store) :
  Db.direction_of dir <> None ->
  exists rows,
    Db.select_articles tp col dir st =
    (Rows rows, Db.issue (SelectArticles tp col dir) st).
Proof.
  intros H. unfold Db.select_articles.
  destruct (Db.direction_of dir); [|done].
  eexists; reflexivity.
Qed.

(** C9. A sort column outside the allow-list {author, title, article_id,
    topic, created_at, votes, comment_count} is answered 400 "Invalid sort
    by query", before the store is reached. A sort column of the allow-list
    is answered 200 with the articles, for an order that is absent or one
    of asc and desc. With neither sort column nor order given, the request
    is the one with [sort_by=created_at] and [order=desc]. *)
Theorem sort_column_allow_list (ps q : gmap string string)
    (b : gmap string JS.value) (st : store) :
  let req := Request GET ["api"; "articles"] ps q b in
  allowed_sort_columns =
  ["author"; "title"; "article_id"; "topic"; "created_at"; "votes";
   "comment_count"] /\
  (forall s, q !! "sort_by" = Some s -> ~ In s allowed_sort_columns ->
             app req st = (Responded invalid_sort, st)) /\
  (forall s, q !! "sort_by" = Some s -> In s allowed_sort_columns ->
             (q !! "order" = None \/
              exists o, q !! "order" = Some o /\
                        (lower o = "asc" \/ lower o = "desc")) ->
             exists rows,
               fst (app req st) =
               Responded (Response (JS.Num 200) (ArticlesBody rows))) /\
  (q !! "sort_by" = None -> q !! "order" = None ->
   app req st =
   app (Request GET ["api"; "articles"] ps
                (<["sort_by" := "created_at"]> (<["order" := "desc"]> q)) b)
       st /\
   exists rows,
     fst (app req st) =
     Responded (Response (JS.Num 200) (ArticlesBody rows))).
Proof.
  intros req. subst req.
  split; [reflexivity|]. split; [|split].
  - intros s Hs Hout. rewrite app_get_articles.
    unfold respond, getAllArticles. cbn [req_query].
    unfold fetchAllArticles.
    rewrite (get_str_Some _ _ _ Hs). cbn [Db.text_in].
    rewrite (resolve_sort_column_not_allowed s Hout).
    unfold invalid_sort. now rewrite error_chain_shaped.
  - intros s Hs Hin Ho. rewrite app_get_articles.
    unfold respond, getAllArticles. cbn [req_query].
    unfold fetchAllArticles.
    rewrite (get_str_Some _ _ _ Hs). cbn [Db.text_in].
    destruct (resolve_sort_column_allowed s Hin) as (col & -> & _).
    set (tp := Db.text_in (JS.get_str q "topic")).
    assert (Hd : Db.direction_of
                   (default "desc" (Db.text_in (JS.get_str q "order")))
                 <> None).
    { destruct Ho as [Ho | (o & Ho & Hl)].
      - now rewrite (get_str_None _ _ Ho).
      - rewrite (get_str_Some _ _ _ Ho). cbn [Db.text_in default].
        unfold Db.direction_of. change (id o) with o.
        destruct Hl as [-> | ->]; discriminate. }
    destruct (select_articles_rows tp col _ st Hd) as [rows ->].
    now exists rows.
  - intros Hs Ho. rewrite !app_get_articles.
    unfold respond, getAllArticles. cbn [req_query].
    unfold fetchAllArticles.
    rewrite (get_str_None _ _ Hs), (get_str_None _ _ Ho).
    rewrite get_str_insert.
    assert (Ht : JS.get_str (<["sort_by":="created_at"]>
                               (<["order":="desc"]> q)) "topic"
                 = JS.get_str q "topic").
    { unfold JS.get_str. now rewrite !lookup_insert_ne. }
    assert (Hord : JS.get_str (<["sort_by":="created_at"]>
                                 (<["order":="desc"]> q)) "order"
                   = JS.Str "desc").
    { unfold JS.get_str.
      now rewrite lookup_insert_ne, lookup_insert_eq. }
    rewrite Ht, Hord. cbn [Db.text_in default].
    change (resolve_sort_column "created_at") with (Some ByCreatedAt).
    split; [reflexivity|].
    destruct (select_articles_rows (Db.text_in (JS.get_str q "topic"))
                ByCreatedAt "desc" st) as [rows ->]; [discriminate|].
    now exists rows.
Qed.

Lemma sort_column_allow_list_witness :
  (~ In "article_img_url" allowed_sort_columns /\
   app (articles_request (<["sort_by" := "article_img_url"]> ∅)) sample_store =
   (Responded invalid_sort, sample_store)) /\
  (In "votes" allowed_sort_columns /\
   exists rows,
     fst (app (articles_request
                 (<["sort_by" := "votes"]> (<["order" := "desc"]> ∅)))
              sample_store) =
     Responded (Response (JS.Num 200) (ArticlesBody rows))) /\
  app (articles_request ∅) sample_store =
  app (articles_request (<["sort_by" := "created_at"]> (<["order" := "desc"]> ∅)))
      sample_store.
Proof.
  split; [|split].
  - assert (H : ~ In "article_img_url" allowed_sort_columns).
    { rewrite allowed_sort_columns_eq. simpl.
      intros [H | [H | [H | [H | [H | [H | [H | []]]]]]]]; discriminate H. }
    split; [exact H|].
    apply (proj1 (proj2 (sort_column_allow_list
                           ∅ (<["sort_by" := "article_img_url"]> ∅) ∅
                           sample_store)) "article_img_url");
      [reflexivity | exact H].
  - assert (H : In "votes" allowed_sort_columns).
    { rewrite allowed_sort_columns_eq. simpl. tauto. }
    split; [exact H|].
    apply (proj1 (proj2 (proj2 (sort_column_allow_list
                           ∅ (<["sort_by" := "votes"]> (<["order" := "desc"]> ∅))
                           ∅ sample_store))) "votes");
      [reflexivity | exact H |].
    right. exists "desc". split; [reflexivity | now right].
  - apply (proj2 (proj2 (proj2 (sort_column_allow_list ∅ ∅ ∅ sample_store))));
      reflexivity.
Defined.

(** Scenarios of the behaviour tests on the list endpoint. *)
Example topic_without_articles_is_empty :
  fst (app (articles_request (<["topic" := "paper"]> ∅)) sample_store) =
  Responded (Response (JS.Num 200) (ArticlesBody [])).
Proof. reflexivity. Qed.

Example articles_default_to_newest_first :
  exists rows,
    fst (app (articles_request ∅) sample_store) =
    Responded (Response (JS.Num 200) (ArticlesBody rows)) /\
    List.map (fun r => article_id (listed r)) rows = [2; 5; 1] /\
    List.map comment_count rows = [0; 1; 2].
Proof. eexists. repeat split; reflexivity. Qed.

Example unknown_order_token_is_left_to_the_store :
  fst (app (articles_request (<["order" := "sideways"]> ∅)) sample_store) =
  Unclassified (Db.failure_object (SyntaxError "sideways")).
Proof. reflexivity. Qed.

Example unknown_path_is_invalid_url :
  app (get_request ["api"; "wrong-path"]) sample_store =
  (Responded invalid_url, sample_store).
Proof. reflexivity. Qed.

(** ** The chain as a whole *)

(** X1. Whatever the failure object, the chain ends in exactly one of three
    ways: the failure's own status and msg are sent (both truthy); or 400
    "Invalid input" is sent (not both truthy, code 22P02); or the failure
    leaves the chain, unchanged. Nothing but [msg] or the fixed text is ever
    sent: the code, message and detail of a store failure stay inside. *)
Theorem error_chain_has_three_outcomes (err : gmap string JS.value) :
  let shaped_err :=
    JS.truthy (JS.get err "status") && JS.truthy (JS.get err "msg") in
  let coded := JS.strict_eq (JS.get err "code") (JS.Str "22P02") in
  (shaped_err = true /\
   handle_error error_chain err =
   Responded (Response (JS.get err "status") (MsgBody (JS.get err "msg")))) \/
  (shaped_err = false /\ coded = true /\
   handle_error error_chain err = Responded invalid_input) \/
  (shaped_err = false /\ coded = false /\
   handle_error error_chain err = Unclassified err).
Proof.
  intros shaped_err coded. subst shaped_err coded.
  destruct (JS.truthy (JS.get err "status")) eqn:Hs;
    [destruct (JS.truthy (JS.get err "msg")) eqn:Hm|].
  - left. split; [reflexivity|].
    now rewrite error_chain_unfold, customErrorMiddleware_shaped.
  - right. rewrite error_chain_unshaped by auto.
    destruct (JS.strict_eq _ _); [left | right]; auto.
  - right. rewrite error_chain_unshaped by auto.
    destruct (JS.strict_eq _ _); [left | right]; auto.
Qed.

(** X2. The order in which [app.js] registers the two error middlewares
    matters for one kind of failure only: one that is shaped and also
    carries the code 22P02. The registered order answers it with its own
    status and msg, the other order would answer 400 "Invalid input"; on
    every other failure the two orders agree. *)
Theorem error_stages_commute_unless_both_recognise
    (err : gmap string JS.value) :
  let shaped_err :=
    JS.truthy (JS.get err "status") && JS.truthy (JS.get err "msg") in
  let coded := JS.strict_eq (JS.get err "code") (JS.Str "22P02") in
  (shaped_err && coded = false ->
   handle_error swapped_chain err = handle_error error_chain err) /\
  (shaped_err && coded = true ->
   handle_error error_chain err =
   Responded (Response (JS.get err "status") (MsgBody (JS.get err "msg"))) /\
   handle_error swapped_chain err = Responded invalid_input).
Proof.
  intros shaped_err coded. subst shaped_err coded.
  assert (Hsw : handle_error swapped_chain err =
                if JS.strict_eq (JS.get err "code") (JS.Str "22P02")
                then Responded invalid_input
                else match customErrorMiddleware err with
                     | Send r => Responded r
                     | Next e => Unclassified e
                     end).
  { unfold swapped_chain. cbn [handle_error].
    unfold handlePsqlErrorsMiddleware.
    now destruct (JS.strict_eq _ _). }
  rewrite Hsw, error_chain_unfold.
  destruct (JS.truthy (JS.get err "status")) eqn:Hs;
    destruct (JS.truthy (JS.get err "msg")) eqn:Hm;
    destruct (JS.strict_eq (JS.get err "code") (JS.Str "22P02")) eqn:Hc;
    cbn [andb]; (split; [intros H | intros H]); try discriminate;
    rewrite ?customErrorMiddleware_shaped by assumption;
    rewrite ?customErrorMiddleware_unshaped by auto;
    unfold handlePsqlErrorsMiddleware; rewrite ?Hc; auto.
Qed.

Lemma error_stages_commute_unless_both_recognise_witness :
  (handle_error swapped_chain
     (Db.failure_object (ForeignKeyViolation "author" "5" "users")) =
   handle_error error_chain
     (Db.failure_object (ForeignKeyViolation "author" "5" "users"))) /\
  (handle_error error_chain shaped_with_code =
   Responded (Response (JS.Num 404)
                       (MsgBody (JS.Str "Article ID does not exist"))) /\
   handle_error swapped_chain shaped_with_code = Responded invalid_input).
Proof.
  split.
  - apply (proj1 (error_stages_commute_unless_both_recognise
                    (Db.failure_object
                       (ForeignKeyViolation "author" "5" "users")))).
    reflexivity.
  - apply (proj2 (error_stages_commute_unless_both_recognise
                    shaped_with_code)).
    reflexivity.
Defined.

(** ** The controllers on their own *)

Lemma error_chain_sends_msg (err : gmap string JS.value) (r : response) :
  handle_error error_chain err = Responded r ->
  exists m, sent r = MsgBody m.
Proof.
  rewrite error_chain_unfold.
  unfold customErrorMiddleware, handlePsqlErrorsMiddleware.
  destruct (JS.truthy _).
  - intros [= <-]. now eexists.
  - destruct (JS.strict_eq _ _); [|discriminate].
    intros [= <-]. now eexists.
Qed.

(** X4. The comments endpoint fails exactly as the article endpoint does.
    When GET /api/articles/:id is not answered 200 with the article, GET
    /api/articles/:id/comments gives the very same outcome and leaves the
    same store; and the comments endpoint answers with comments only if the
    article endpoint answers with the article. *)
Theorem comments_endpoint_inherits_lookup_failure (tok : string)
    (ps q : gmap string string) (b : gmap string JS.value) (st : store) :
  let article_req := Request GET ["api"; "articles"; tok] ps q b in
  let comments_req := Request GET ["api"; "articles"; tok; "comments"] ps q b in
  ((forall row, fst (app article_req st) <>
                Responded (Response (JS.Num 200) (ArticleBody row))) ->
   app comments_req st = app article_req st) /\
  (forall rows,
      fst (app comments_req st) =
      Responded (Response (JS.Num 200) (CommentsBody rows)) ->
      exists row,
        fst (app article_req st) =
        Responded (Response (JS.Num 200) (ArticleBody row))).
Proof.
  intros article_req comments_req. subst article_req comments_req.
  rewrite app_get_comments, app_get_article.
  unfold respond, getCommentsByArticleId, getArticlesById.
  cbn [req_params].
  destruct (fetchArticlesById _ st) as [[row|err] s1]; cbn [fst]; split.
  - intros H. now destruct (H row).
  - intros rows _. now exists row.
  - reflexivity.
  - intros rows H. apply error_chain_sends_msg in H as [m Hm].
    discriminate Hm.
Qed.

Lemma comments_endpoint_inherits_lookup_failure_witness :
  fst (app (get_request ["api"; "articles"; "5667"]) sample_store) =
  Responded article_not_found /\
  app (get_request ["api"; "articles"; "5667"; "comments"]) sample_store =
  app (get_request ["api"; "articles"; "5667"]) sample_store.
Proof.
  split; [reflexivity|].
  apply (proj1 (comments_endpoint_inherits_lookup_failure
                  "5667" ∅ ∅ ∅ sample_store)).
  intros row. discriminate.
Defined.

(** X5. The controller that tests the identifier with [isNaN] is the wired
    [getArticlesById] with one more call in front: when [isNaN] holds it
    first calls [next] with 400 "Article ID invalid - must be a number",
    which the first stage of the chain would send, and then, lacking a
    return, does all the wired controller does, so it acts twice; when
    [isNaN] does not hold the two controllers coincide. *)
Theorem unwired_controller_is_wired_plus_early_next
    (isNaN : JS.value -> bool) (req : request) (st : store) :
  let id := JS.get_str (req_params req) "article_id" in
  let early := shaped 400 "Article ID invalid - must be a number" in
  Unwired.getArticlesById isNaN req st =
  (((if isNaN id then [Next early] else []) ++
    [fst (getArticlesById req st)])%list,
   snd (getArticlesById req st)) /\
  handle_error error_chain early =
  Responded (Response (JS.Num 400)
               (MsgBody (JS.Str "Article ID invalid - must be a number"))).
Proof.
  intros id early. split; [|reflexivity].
  unfold Unwired.getArticlesById, getArticlesById. fold id. fold early.
  now destruct (fetchArticlesById id st) as [[row|err] s1].
Qed.

(** ** The stack of [app.js] as a whole *)

Lemma handle_error_is_not_Unmatched (stack : list layer)
    (err : gmap string JS.value) :
  handle_error stack err <> Unmatched.
Proof.
  revert err. induction stack as [|[m pat h|h] rest IH]; intros err; simpl.
  - discriminate.
  - apply IH.
  - destruct (h err); [discriminate | apply IH].
Qed.

Lemma respond_is_not_Unmatched (h : handler) (req : request) (st : store) :
  fst (respond h req st) <> Unmatched.
Proof.
  unfold respond. destruct (h req st) as [[r|err] st']; cbn [fst].
  - discriminate.
  - apply handle_error_is_not_Unmatched.
Qed.

Ltac walk_routes :=
  cbn [handle req_method req_path match_method method_eqb match_pattern
       match_segments];
  repeat match goal with
         | |- context [if String.eqb ?x ?y then _ else _] =>
             destruct (String.eqb x y)
         end.

(** X6. Every request that the JSON body parser hands on is served in
    exactly one of three ways. A GET or a HEAD goes to one of the four GET
    controllers, a POST to [postCommentByArticleId], each with the error
    chain behind it; every other request, whatever its method and path, is
    answered 404 "Invalid URL" by the catch-all and leaves the store
    untouched. In no case does such a request fall off the end of the
    stack. *)
Theorem every_request_is_served (req : request) (st : store) :
  (app req st = (Responded invalid_url, st) \/
   ((req_method req = GET \/ req_method req = HEAD) /\
    exists ps,
      app req st = respond getTopics (with_params ps req) st \/
      app req st = respond getAllArticles (with_params ps req) st \/
      app req st = respond getArticlesById (with_params ps req) st \/
      app req st = respond getCommentsByArticleId (with_params ps req) st) \/
   (req_method req = POST /\
    exists ps,
      app req st = respond postCommentByArticleId (with_params ps req) st)) /\
  fst (app req st) <> Unmatched.
Proof.
  assert (H : app req st = (Responded invalid_url, st) \/
   ((req_method req = GET \/ req_method req = HEAD) /\
    exists ps,
      app req st = respond getTopics (with_params ps req) st \/
      app req st = respond getAllArticles (with_params ps req) st \/
      app req st = respond getArticlesById (with_params ps req) st \/
      app req st = respond getCommentsByArticleId (with_params ps req) st) \/
   (req_method req = POST /\
    exists ps,
      app req st = respond postCommentByArticleId (with_params ps req) st)).
  { destruct req as [m p ps q b]. unfold app, routes.
    destruct m; try (left; reflexivity).
    - destruct p as [|a [|b0 [|c [|d [|e rest]]]]]; walk_routes;
        try (left; reflexivity);
        right; left; (split; [left; reflexivity|]); eexists;
        first [ left; reflexivity
              | right; left; reflexivity
              | right; right; left; reflexivity
              | right; right; right; reflexivity ].
    - destruct p as [|a [|b0 [|c [|d [|e rest]]]]]; walk_routes;
        try (left; reflexivity);
        right; left; (split; [right; reflexivity|]); eexists;
        first [ left; reflexivity
              | right; left; reflexivity
              | right; right; left; reflexivity
              | right; right; right; reflexivity ].
    - destruct p as [|a [|b0 [|c [|d [|e rest]]]]]; walk_routes;
        try (left; reflexivity);
        right; right; (split; [reflexivity|]); eexists; reflexivity.
    Unshelve. all: exact ∅. }
  split; [exact H|].
  destruct H as [-> | [(_ & ps & [-> | [-> | [-> | ->]]]) | (_ & ps & ->)]];
    try apply respond_is_not_Unmatched.
  discriminate.
Qed.

Ltac settle_routes :=
  unfold app, routes;
  cbn [handle req_method req_path match_method method_eqb match_pattern
       match_segments];
  repeat match goal with
         | H : lower ?x <> _
           |- context [String.eqb (lower ?t) (lower ?x)] =>
             replace (String.eqb (lower t) (lower x)) with false
               by (symmetry; apply String.eqb_neq; intros E; apply H;
                   rewrite <- E; reflexivity)
         end;
  repeat match goal with
         | |- context [if String.eqb ?x ?y then _ else _] =>
             destruct (String.eqb x y)
         end;
  reflexivity.

(** X7. Requests outside the routes of [app.js] are all answered 404
    "Invalid URL" with the store untouched, whatever the method: a path of
    fewer than two or more than four segments; a path whose first segment
    is not [api], or whose second segment is neither [topics] nor
    [articles] (compared without regard to case); and, for a POST, any
    path that does not have four segments. *)
Theorem requests_outside_the_routes (m : method) (p : list string)
    (ps q : gmap string string) (b : gmap string JS.value) (st : store) :
  (length p < 2)%nat \/
  (4 < length p)%nat \/
  (exists a rest, p = a :: rest /\ lower a <> "api") \/
  (exists a s rest, p = a :: s :: rest /\
                    lower s <> "topics" /\ lower s <> "articles") \/
  (m = POST /\ length p <> 4%nat) ->
  app (Request m p ps q b) st = (Responded invalid_url, st).
Proof.
  intros [H | [H | [(a & rest & -> & H) | [(a & s & rest & -> & H1 & H2)
                                          | [-> H]]]]].
  - destruct p as [|a [|s rest]]; simpl in H; try lia;
      destruct m; settle_routes.
  - destruct p as [|a [|s [|c [|d [|e rest]]]]]; simpl in H; try lia;
      destruct m; settle_routes.
  - destruct rest as [|s [|c [|d [|e rest]]]]; destruct m; settle_routes.
  - destruct rest as [|c [|d [|e rest]]]; destruct m; settle_routes.
  - destruct p as [|a [|s [|c [|d [|e rest]]]]]; simpl in H; try lia;
      settle_routes.
Qed.

Lemma requests_outside_the_routes_witness :
  lower "API" = "api" /\ lower "users" <> "topics" /\
  lower "users" <> "articles" /\
  app (get_request ["API"; "users"]) sample_store =
  (Responded invalid_url, sample_store) /\
  app (Request POST ["api"; "articles"] ∅ ∅ comment_fields) sample_store =
  (Responded invalid_url, sample_store).
Proof.
  split; [reflexivity|]. split; [discriminate|]. split; [discriminate|].
  split.
  - apply (requests_outside_the_routes GET ["API"; "users"] ∅ ∅ ∅
             sample_store).
    right; right; right; left. exists "API", "users", [].
    repeat split; discriminate.
  - apply (requests_outside_the_routes POST ["api"; "articles"] ∅ ∅
             comment_fields sample_store).
    right; right; right; right. split; [reflexivity | discriminate].
Defined.

(** X8. A wired route reads nothing of a request but what its controller
    names. The two GET routes under an article identifier give the same
    outcome whatever the query string and the body; the POST route depends
    on the body only through [body] and [username]; the list route depends
    on the query only through [topic], [sort_by] and [order]. *)
Theorem wired_routes_read_only_named_fields (tok : string)
    (ps ps' q q' : gmap string string) (b b' : gmap string JS.value)
    (st : store) :
  app (Request GET ["api"; "articles"; tok] ps q b) st =
  app (Request GET ["api"; "articles"; tok] ps' q' b') st /\
  app (Request GET ["api"; "articles"; tok; "comments"] ps q b) st =
  app (Request GET ["api"; "articles"; tok; "comments"] ps' q' b') st /\
  (JS.get b "body" = JS.get b' "body" ->
   JS.get b "username" = JS.get b' "username" ->
   app (Request POST ["api"; "articles"; tok; "comments"] ps q b) st =
   app (Request POST ["api"; "articles"; tok; "comments"] ps' q' b') st) /\
  (q !! "topic" = q' !! "topic" ->
   q !! "sort_by" = q' !! "sort_by" ->
   q !! "order" = q' !! "order" ->
   app (Request GET ["api"; "articles"] ps q b) st =
   app (Request GET ["api"; "articles"] ps' q' b') st).
Proof.
  split; [|split; [|split]].
  - now rewrite !app_get_article.
  - now rewrite !app_get_comments.
  - intros Hb Hu. rewrite !app_post_comment.
    unfold respond, postCommentByArticleId. cbn [req_params req_body].
    now rewrite Hb, Hu.
  - intros Ht Hs Ho. rewrite !app_get_articles.
    unfold respond, getAllArticles, JS.get_str. cbn [req_query].
    now rewrite Ht, Hs, Ho.
Qed.

Lemma wired_routes_read_only_named_fields_witness :
  app (Request POST ["api"; "articles"; "5"; "comments"] ∅ ∅
               (<["votes" := JS.Num 100]> comment_fields)) sample_store =
  app (post_comment_request "5" comment_fields) sample_store.
Proof.
  apply (proj1 (proj2 (proj2 (wired_routes_read_only_named_fields
                                "5" ∅ ∅ ∅ ∅
                                (<["votes" := JS.Num 100]> comment_fields)
                                comment_fields sample_store))));
    reflexivity.
Defined.
